(** * Interest Predictor (src/app.py): a shallow embedding of the
      inference pipeline of the Streamlit script.

    The script is modelled the way it is written: one run of [main] is a
    computation in a small monad that threads the world (the disk, the
    session state and the resource cache of [st.cache_resource]), logs
    what the run shows and which external calls it makes, and either
    returns or raises a Python exception.

    Conventions of the embedding:
    - the HTML passed to [st.markdown] is not reproduced; each call is one
      constructor of [Element], carrying the values interpolated into it;
    - layout context managers ([st.container], [st.columns]) show nothing
      of their own and are left out;
    - the class probabilities are binary64 numbers ([float], with the
      IEEE 754 operations: rounding, signed zeros, infinities and NaN);
      the display rounding of the f-string ([:.1f]) is not modelled,
      [ResultCard] carries the raw confidence;
    - [st.session_state] holds strings (the script's own gender_sel) and
      booleans (what Streamlit stores under the key of a keyed button);
    - the fitted classifier is an opaque capability with the two methods
      the script calls, each a function of the data frame it is given that
      returns an array or raises. *)

From Stdlib Require Import ZArith Lia Floats.
From stdpp Require Import gmap strings list fin_maps.

Set Warnings "-inexact-float".

Open Scope Z_scope.
Open Scope string_scope.

(** ** Python values and outcomes *)

(** An instance of Python's [Exception], the class both handlers of the
    script name in their [except] clause: its class name and the text that
    [str(e)] gives. *)
Record Exception := { exc_class : string; str : string }.

(** What evaluating a Python expression ends in. *)
Inductive Outcome (A : Type) : Type :=
| Return (a : A)
| Raise (e : Exception).
Arguments Return {A} a.
Arguments Raise {A} e.

(** What [st.session_state] holds under a key. *)
Inductive Value :=
| PyStr (s : string)
| PyBool (b : bool).

(** [str(v)], as an f-string interpolates it. *)
Definition py_str (v : Value) : string :=
  match v with
  | PyStr s => s
  | PyBool true => "True"
  | PyBool false => "False"
  end.

(** [v == s] for a string literal [s]. *)
Definition py_eq_str (v : Value) (s : string) : bool :=
  match v with
  | PyStr t => String.eqb t s
  | PyBool _ => false
  end.

(** [pd.DataFrame({...})]: named columns in insertion order. *)
Definition DataFrame := list (string * list Z).

(** The fitted classifier: [model.predict] and [model.predict_proba].
    That a call answers the same on the same frame is how the embedding
    takes the artifact, not something proved about it. *)
Record Classifier := {
  predict : DataFrame -> Outcome (list string);
  predict_proba : DataFrame -> Outcome (list (list float))
}.

(** What a file on disk deserializes to under [joblib.load]. *)
Inductive Pickle :=
| Corrupt (e : Exception)
| Fitted (m : Classifier).

(** ** What a run shows and calls *)

Inductive Element :=
| Header
| ModelNotFound
| InputCardOpen
| SectionTitle
| AgeLabel
| Slider (min_value max_value value step : Z)
| AgeDisplay (age : Z)
| GenderLabel
| Button (label : string)
| Selected (gender_sel : string)
| InputCardClose
| ResultCard (emoji prediction : string) (confidence : float)
| StError (msg : string)
| Footer.

Inductive Event :=
| Render (el : Element)
| OsPathExists (path : string)
| JoblibLoad (path : string)
| ModelPredict (input_data : DataFrame)
| ModelPredictProba (input_data : DataFrame).

(** The elements among the events, in order. *)
Definition shown (evs : list Event) : list Element :=
  omap (fun ev => match ev with Render el => Some el | _ => None end) evs.

(** ** The world a run executes in *)

Record World := {
  disk : gmap string Pickle;
  session_state : gmap string Value;
  resource_cache : option (option Classifier * list Element)
}.

(** What the browser reports to one run: the slider position and which
    button, if any, triggered the run. *)
Record Widgets := {
  slider_age : Z;
  female_clicked : bool;
  male_clicked : bool;
  predict_clicked : bool
}.

(** ** The script monad *)

Definition M (A : Type) : Type := World -> Outcome A * World * list Event.

Definition ret {A} (a : A) : M A := fun w => (Return a, w, []).

Definition bind {A B} (m : M A) (k : A -> M B) : M B :=
  fun w =>
    match m w with
    | (Return a, w1, evs1) =>
        match k a w1 with
        | (r, w2, evs2) => (r, w2, (evs1 ++ evs2)%list)
        end
    | (Raise e, w1, evs1) => (Raise e, w1, evs1)
    end.

Definition raise {A} (e : Exception) : M A := fun w => (Raise e, w, []).

(** [try: body except Exception as e: handler e]. *)
Definition try_except {A} (body : M A) (handler : Exception -> M A) : M A :=
  fun w =>
    match body w with
    | (Return a, w1, evs1) => (Return a, w1, evs1)
    | (Raise e, w1, evs1) =>
        match handler e w1 with
        | (r, w2, evs2) => (r, w2, (evs1 ++ evs2)%list)
        end
    end.

Definition lift {A} (o : Outcome A) : M A := fun w => (o, w, []).
Definition emit (ev : Event) : M unit := fun w => (Return tt, w, [ev]).
Definition get_world : M World := fun w => (Return w, w, []).
Definition put_world (w' : World) : M unit := fun _ => (Return tt, w', []).

Declare Scope script_scope.
Delimit Scope script_scope with script.
Notation "x <- m ;; k" := (bind m (fun x => k))
  (at level 100, m at next level, right associativity) : script_scope.
Notation "m ;;; k" := (bind m (fun _ => k))
  (at level 100, right associativity) : script_scope.
Open Scope script_scope.

(** ** Library calls *)

Definition st_markdown (el : Element) : M unit := emit (Render el).
Definition st_error (msg : string) : M unit := emit (Render (StError msg)).

(** [st.slider]: shows the widget and returns the position reported. *)
Definition st_slider (min_value max_value value step : Z) (pos : Z) : M Z :=
  emit (Render (Slider min_value max_value value step));;; ret pos.

(** [os.path.exists]. *)
Definition os_path_exists (path : string) : M bool :=
  emit (OsPathExists path);;;
  w <- get_world;;
  ret (bool_decide (is_Some (disk w !! path))).

Definition FileNotFoundError (path : string) : Exception :=
  {| exc_class := "FileNotFoundError";
     str := "[Errno 2] No such file or directory: '" ++ path ++ "'" |}.

(** [joblib.load]. *)
Definition joblib_load (path : string) : M Classifier :=
  emit (JoblibLoad path);;;
  w <- get_world;;
  match disk w !! path with
  | None => raise (FileNotFoundError path)
  | Some (Corrupt e) => raise e
  | Some (Fitted m) => ret m
  end.

(** ['k' in st.session_state], [st.session_state.k = v] and
    [st.session_state.k]. *)
Definition session_has (k : string) : M bool :=
  w <- get_world;; ret (bool_decide (is_Some (session_state w !! k))).

Definition session_set (k : string) (v : Value) : M unit :=
  w <- get_world;;
  put_world {| disk := disk w;
               session_state := <[k := v]> (session_state w);
               resource_cache := resource_cache w |}.

Definition AttributeError (k : string) : Exception :=
  {| exc_class := "AttributeError";
     str := "st.session_state has no attribute '" ++ k ++ "'" |}.

Definition session_get (k : string) : M Value :=
  w <- get_world;;
  match session_state w !! k with
  | Some v => ret v
  | None => raise (AttributeError k)
  end.

(** [st.button]: shows the widget, stores its value under the widget's
    key when it has one, and returns whether it was clicked. *)
Definition st_button (label : string) (key : option string) (clicked : bool)
  : M bool :=
  emit (Render (Button label));;;
  match key with
  | Some k => session_set k (PyBool clicked)
  | None => ret tt
  end;;;
  ret clicked.

(** [a[0]] on the array a classifier method returns. *)
Definition IndexError : Exception :=
  {| exc_class := "IndexError";
     str := "index 0 is out of bounds for axis 0 with size 0" |}.

Definition item0 {A} (a : list A) : Outcome A :=
  match a with
  | x :: _ => Return x
  | [] => Raise IndexError
  end.

(** The builtin [max] over an iterable: the running maximum is replaced
    only by an item that compares greater ([item > best]). *)
Definition ValueError : Exception :=
  {| exc_class := "ValueError"; str := "max() arg is an empty sequence" |}.

Fixpoint max_from (best : float) (items : list float) : float :=
  match items with
  | [] => best
  | x :: items' => max_from (if (best <? x)%float then x else best) items'
  end.

Definition py_max (items : list float) : Outcome float :=
  match items with
  | [] => Raise ValueError
  | x :: items' => Return (max_from x items')
  end.

Definition model_predict (model : Classifier) (input_data : DataFrame)
  : M (list string) :=
  emit (ModelPredict input_data);;; lift (predict model input_data).

Definition model_predict_proba (model : Classifier) (input_data : DataFrame)
  : M (list (list float)) :=
  emit (ModelPredictProba input_data);;; lift (predict_proba model input_data).

(** [@st.cache_resource]: the first call that returns stores the value
    together with the elements shown while computing it; later calls
    return the stored value and show the stored elements again, without
    running the function. A call that raises stores nothing. *)
Definition st_cache_resource (f : M (option Classifier))
  : M (option Classifier) :=
  fun w =>
    match resource_cache w with
    | Some (v, els) => (Return v, w, Render <$> els)
    | None =>
        match f w with
        | (Return v, w1, evs) =>
            (Return v,
             {| disk := disk w1;
                session_state := session_state w1;
                resource_cache := Some (v, shown evs) |},
             evs)
        | (Raise e, w1, evs) => (Raise e, w1, evs)
        end
    end.

(** ** The script *)

(** The body of [load_model] (app.py, lines 219-230); [None] is Python's
    [None]. *)
Definition load_model_body : M (option Classifier) :=
  try_except
    (found <- os_path_exists "model.pkl";;
     if found then
       model <- joblib_load "model.pkl";;
       ret (Some model)
     else
       ret None)
    (fun e =>
       st_error ("Error loading model: " ++ str e);;;
       ret None).

(** [load_model] as decorated. *)
Definition load_model : M (option Classifier) :=
  st_cache_resource load_model_body.

(** "Determine selected gender" (lines 292-298). *)
Definition determine_gender (female_selected male_selected : bool) : M unit :=
  has <- session_has "gender_sel";;
  (if negb has then session_set "gender_sel" (PyStr "Female") else ret tt);;;
  if female_selected then session_set "gender_sel" (PyStr "Female")
  else if male_selected then session_set "gender_sel" (PyStr "Male")
  else ret tt.

(** "Prepare input" (lines 312-316). *)
Definition gender_encoded (gender_sel : Value) : Z :=
  if py_eq_str gender_sel "Female" then 0 else 1.

Definition prepare_input (age : Z) : M DataFrame :=
  gender_sel <- session_get "gender_sel";;
  ret [("Age", [age]); ("Gender", [gender_encoded gender_sel])].

(** The glyph table and its lookup (lines 325-331). *)
Definition emoji_map : gmap string string :=
  {[ "Animation" := "🎬"; "Action" := "💥"; "Drama" := "🎭" ]}.

Definition emoji_of (prediction : string) : string :=
  default "🎯" (emoji_map !! prediction).

(** "Make prediction" (lines 319-344): the [try] statement. *)
Definition make_prediction (model : Classifier) (input_data : DataFrame)
  : M unit :=
  try_except
    (labels <- model_predict model input_data;;
     prediction <- lift (item0 labels);;
     rows <- model_predict_proba model input_data;;
     probabilities <- lift (item0 rows);;
     top <- lift (py_max probabilities);;
     let confidence := (top * 100)%float in
     let emoji := emoji_of prediction in
     st_markdown (ResultCard emoji prediction confidence))
    (fun e => st_error ("Error making prediction: " ++ str e)).

(** One run of [main] (lines 232-351). *)
Definition main (ui : Widgets) : M unit :=
  model <- load_model;;
  st_markdown Header;;;
  match model with
  | None => st_markdown ModelNotFound
  | Some model =>
      st_markdown InputCardOpen;;;
      st_markdown SectionTitle;;;
      st_markdown AgeLabel;;;
      age <- st_slider 18 80 25 1 (slider_age ui);;
      st_markdown (AgeDisplay age);;;
      st_markdown GenderLabel;;;
      female_selected <- st_button "👩 Female" (Some "female")
                           (female_clicked ui);;
      male_selected <- st_button "👨 Male" (Some "male") (male_clicked ui);;
      determine_gender female_selected male_selected;;;
      gender_sel <- session_get "gender_sel";;
      st_markdown (Selected (py_str gender_sel));;;
      st_markdown InputCardClose;;;
      go <- st_button "🔮 Predict My Interest" None (predict_clicked ui);;
      (if go then
         input_data <- prepare_input age;;
         make_prediction model input_data
       else ret tt);;;
      st_markdown Footer
  end.

(** The script is run again on every interaction; the world left by one
    run is the world the next one starts in. *)
Fixpoint reruns (uis : list Widgets) (w : World)
  : list (Outcome unit * list Event) * World :=
  match uis with
  | [] => ([], w)
  | ui :: uis' =>
      match main ui w with
      | (r, w1, evs) =>
          match reruns uis' w1 with
          | (rs, w2) => ((r, evs) :: rs, w2)
          end
      end
  end.

(** A process that has just started on a given disk. *)
Definition fresh (d : gmap string Pickle) : World :=
  {| disk := d; session_state := ∅; resource_cache := None |}.

(** * Notions used in the statements *)

(** What the two keyed buttons leave in the session state. *)
Definition widgets_written (ui : Widgets) (ss : gmap string Value)
  : gmap string Value :=
  <["male" := PyBool (male_clicked ui)]>
    (<["female" := PyBool (female_clicked ui)]> ss).

(** The gender selection a run ends up with, as a function of the clicks
    and of the session state it started in. *)
Definition chosen (female_selected male_selected : bool)
    (ss : gmap string Value) : Value :=
  if female_selected then PyStr "Female"
  else if male_selected then PyStr "Male"
  else default (PyStr "Female") (ss !! "gender_sel").

Definition with_session (ss : gmap string Value) (w : World) : World :=
  {| disk := disk w; session_state := ss; resource_cache := resource_cache w |}.

(** The label and confidence of every result card among the events. *)
Definition cards (evs : list Event) : list (string * float) :=
  omap (fun ev =>
          match ev with
          | Render (ResultCard _ prediction confidence) =>
              Some (prediction, confidence)
          | _ => None
          end) evs.

(** The three classes the spec names. *)
Definition known_label (label : string) : Prop :=
  label = "Animation" \/ label = "Action" \/ label = "Drama".

(** A probability: a binary64 number of the interval [0,1]. *)
Definition probability (p : float) : Prop :=
  (0 <=? p)%float = true /\ (p <=? 1)%float = true.

Definition with_cache (c : option (option Classifier * list Element))
    (w : World) : World :=
  {| disk := disk w; session_state := session_state w; resource_cache := c |}.

(** The artifact [m] is at hand: already in the cache, or on disk with
    the cache still empty. *)
Definition available (m : Classifier) (w : World) : Prop :=
  resource_cache w = Some (Some m, []) \/
  (resource_cache w = None /\ disk w !! "model.pkl" = Some (Fitted m)).

(** No artifact at hand: the file is missing and nothing but that is in
    the cache. *)
Definition unavailable (w : World) : Prop :=
  disk w !! "model.pkl" = None /\
  (resource_cache w = None \/ resource_cache w = Some (None, [])).

Definition load_calls (w : World) : list Event :=
  match resource_cache w with
  | Some _ => []
  | None => [OsPathExists "model.pkl"; JoblibLoad "model.pkl"]
  end.

(** What a run with the artifact at hand shows before the prediction. *)
Definition form_events (age : Z) (gender_sel : string) : list Event :=
  [Render Header; Render InputCardOpen; Render SectionTitle; Render AgeLabel;
   Render (Slider 18 80 25 1); Render (AgeDisplay age); Render GenderLabel;
   Render (Button "👩 Female"); Render (Button "👨 Male");
   Render (Selected gender_sel); Render InputCardClose;
   Render (Button "🔮 Predict My Interest")].

Definition input_of (ui : Widgets) (w : World) : DataFrame :=
  [("Age", [slider_age ui]);
   ("Gender",
    [gender_encoded
       (chosen (female_clicked ui) (male_clicked ui) (session_state w))])].

Definition after_run (m : Classifier) (ui : Widgets) (w : World) : World :=
  {| disk := disk w;
     session_state :=
       <["gender_sel" :=
           chosen (female_clicked ui) (male_clicked ui) (session_state w)]>
         (widgets_written ui (session_state w));
     resource_cache := Some (Some m, []) |}.

(** ** Sample artifacts and worlds *)

Definition shape_error : Exception :=
  {| exc_class := "ValueError";
     str := "X has a different number of features than expected" |}.

(** A fitted tree that splits on the Gender column only; its two leaves
    are the end-to-end scenarios 1 and 2 of the specification. *)
Definition sample_tree : Classifier :=
  {| predict := fun df =>
       match df with
       | [(_, [_]); (_, [gender])] =>
           Return [if Z.eqb gender 0 then "Animation" else "Action"]
       | _ => Raise shape_error
       end;
     predict_proba := fun df =>
       match df with
       | [(_, [_]); (_, [gender])] =>
           Return [if Z.eqb gender 0
                   then [0.7; 0.2; 0.1]%float
                   else [0.1; 0.85; 0.05]%float]
       | _ => Raise shape_error
       end |}.

(** A tree whose leaf holds the distribution (0.43, 0.57, 0). *)
Definition uneven_tree : Classifier :=
  {| predict := fun _ => Return ["Action"];
     predict_proba := fun _ => Return [[0.43; 0.57; 0]%float] |}.

(** An artifact that has drifted: it answers a label outside the three
    classes. *)
Definition comedy_tree : Classifier :=
  {| predict := fun _ => Return ["Comedy"];
     predict_proba := fun _ => Return [[0.25; 0.5; 0.25]%float] |}.

(** An artifact whose [predict] raises. *)
Definition failing_tree : Classifier :=
  {| predict := fun _ => Raise shape_error;
     predict_proba := fun _ => Raise shape_error |}.

Definition unpickling_error : Exception :=
  {| exc_class := "UnpicklingError"; str := "invalid load key" |}.

Definition corrupt_disk : gmap string Pickle :=
  {[ "model.pkl" := Corrupt unpickling_error ]}.

Definition sample_disk : gmap string Pickle :=
  {[ "model.pkl" := Fitted sample_tree ]}.

(** A world whose session state holds the given gender selection. *)
Definition selected (gender_sel : string) : World :=
  {| disk := sample_disk;
     session_state := {[ "gender_sel" := PyStr gender_sel ]};
     resource_cache := Some (Some sample_tree, []) |}.

Definition click_predict (age : Z) : Widgets :=
  {| slider_age := age; female_clicked := false; male_clicked := false;
     predict_clicked := true |}.

(** ** Notions used for the whole-run properties *)

(** Calls that touch the disk, and calls on the classifier. *)
Definition disk_call (ev : Event) : bool :=
  match ev with
  | OsPathExists _ | JoblibLoad _ => true
  | _ => false
  end.

Definition classifier_call (ev : Event) : bool :=
  match ev with
  | ModelPredict _ | ModelPredictProba _ => true
  | _ => false
  end.

(** The frames [predict] was called on, in order. *)
Definition predict_calls (evs : list Event) : list DataFrame :=
  omap (fun ev => match ev with ModelPredict df => Some df | _ => None end) evs.

(** What a run shows and calls once [load_model] has returned [v]. *)
Definition page (v : option Classifier) (ui : Widgets) (w : World)
  : list Event :=
  match v with
  | None => [Render Header; Render ModelNotFound]
  | Some m =>
      (form_events (slider_age ui)
         (py_str
            (chosen (female_clicked ui) (male_clicked ui) (session_state w))) ++
       (if predict_clicked ui
        then (make_prediction m (input_of ui w) w).2 else []) ++
       [Render Footer])%list
  end.

Definition session_after (v : option Classifier) (ui : Widgets) (w : World)
  : gmap string Value :=
  match v with
  | None => session_state w
  | Some _ =>
      <["gender_sel" :=
          chosen (female_clicked ui) (male_clicked ui) (session_state w)]>
        (widgets_written ui (session_state w))
  end.

(** The stored selection is unset or one of the two labels. *)
Definition selection_ok (w : World) : Prop :=
  session_state w !! "gender_sel" = None \/
  session_state w !! "gender_sel" = Some (PyStr "Female") \/
  session_state w !! "gender_sel" = Some (PyStr "Male").

(** The file cannot be deserialized, and the cache is empty or holds the
    outcome of the failed load. *)
Definition undeserializable (e : Exception) (w : World) : Prop :=
  disk w !! "model.pkl" = Some (Corrupt e) /\
  (resource_cache w = None \/
   resource_cache w =
     Some (None, [StError ("Error loading model: " ++ str e)])).

(** A widget report with both gender buttons clicked. *)
Definition click_both (age : Z) : Widgets :=
  {| slider_age := age; female_clicked := true; male_clicked := true;
     predict_clicked := true |}.

Definition click_male (age : Z) : Widgets :=
  {| slider_age := age; female_clicked := false; male_clicked := true;
     predict_clicked := false |}.

Definition idle (age : Z) : Widgets :=
  {| slider_age := age; female_clicked := false; male_clicked := false;
     predict_clicked := false |}.

(** Artifacts that answer empty arrays. *)
Definition no_label_tree : Classifier :=
  {| predict := fun _ => Return [];
     predict_proba := fun _ => Return [[1]%float] |}.

(** The binary64 number 100, as the IEEE 754 specification writes it. *)
Definition SF100 : spec_float := S754_finite false 7036874417766400 (-46).

(** The order on the finite numbers of one sign is lexicographic in the
    exponent and the mantissa. *)
Definition lex_le (e1 : Z) (m1 : positive) (e2 : Z) (m2 : positive) : Prop :=
  e1 < e2 \/ (e1 = e2 /\ Z.pos m1 <= Z.pos m2).

(** * Properties of binary64 arithmetic *)

(** ** Binary64 facts *)

Section Binary64.
Local Open Scope Z_scope.

Lemma Zdigits2_log2 (x : Z) : 0 < x -> Zdigits2 x = Z.log2 x + 1.
Proof.
  destruct x as [|p|p]; try lia. intros _.
  destruct p as [p|p|]; simpl; try reflexivity;
    (replace (digits2_pos p) with (Pos.size p) by (induction p; simpl; congruence));
    lia.
Qed.

Lemma Zdigits2_bounds (x : Z) :
  0 < x -> 2 ^ (Zdigits2 x - 1) <= x < 2 ^ Zdigits2 x.
Proof.
  intros Hx. rewrite Zdigits2_log2 by lia.
  replace (Z.log2 x + 1 - 1) with (Z.log2 x) by lia.
  apply (Z.log2_spec x Hx).
Qed.

Lemma Zdigits2_le (x k : Z) : 0 < x -> 0 <= k -> x < 2 ^ k -> Zdigits2 x <= k.
Proof.
  intros Hx Hk Hlt. rewrite Zdigits2_log2 by lia.
  apply Z.log2_lt_pow2 in Hlt; lia.
Qed.

Lemma shr_1_m (mrs : shr_record) :
  0 <= shr_m mrs -> shr_m (shr_1 mrs) = Z.div2 (shr_m mrs).
Proof.
  destruct mrs as [m r s]. simpl. intros Hm.
  destruct m as [|[p|p|]|p]; simpl; try reflexivity; lia.
Qed.

Lemma shr_iter_m (n : positive) : forall mrs, 0 <= shr_m mrs ->
  shr_m (SpecFloat.iter_pos shr_1 n mrs) = Z.shiftr (shr_m mrs) (Zpos n).
Proof.
  induction n as [n IH|n IH|]; intros mrs Hm; simpl SpecFloat.iter_pos.
  - assert (H1 : 0 <= shr_m (shr_1 mrs)) by (rewrite shr_1_m by lia; apply Z.div2_nonneg; lia).
    assert (H2 : 0 <= shr_m (SpecFloat.iter_pos shr_1 n (shr_1 mrs))) by (rewrite IH by lia; apply Z.shiftr_nonneg; lia).
    rewrite IH, IH, shr_1_m by lia.
    rewrite Z.div2_spec, !Z.shiftr_shiftr by lia. f_equal. lia.
  - assert (H2 : 0 <= shr_m (SpecFloat.iter_pos shr_1 n mrs)) by (rewrite IH by lia; apply Z.shiftr_nonneg; lia).
    rewrite IH, IH by lia.
    rewrite !Z.shiftr_shiftr by lia. f_equal. lia.
  - rewrite shr_1_m by lia. apply Z.div2_spec.
Qed.

Lemma shr_record_of_loc_m (m : Z) (l : location) :
  shr_m (shr_record_of_loc m l) = m.
Proof. destruct l as [|[]]; reflexivity. Qed.

(** What [shr_fexp] computes, as far as the mantissa and the exponent go. *)
Lemma shr_fexp_spec (mx ex : Z) (l : location) :
  0 <= mx ->
  let e' := Z.max ex (fexp prec emax (Zdigits2 mx + ex)) in
  snd (shr_fexp prec emax mx ex l) = e' /\
  shr_m (fst (shr_fexp prec emax mx ex l)) = Z.shiftr mx (e' - ex).
Proof.
  intros Hm e'. unfold shr_fexp, shr. subst e'.
  destruct (fexp prec emax (Zdigits2 mx + ex) - ex) as [|n|n] eqn:Hn; simpl fst; simpl snd.
  - replace (Z.max ex _) with ex by lia. rewrite Z.sub_diag, Z.shiftr_0_r.
    split; [reflexivity|apply shr_record_of_loc_m].
  - replace (Z.max ex _) with (ex + Z.pos n) by lia.
    split; [reflexivity|].
    rewrite shr_iter_m by (rewrite shr_record_of_loc_m; lia).
    rewrite shr_record_of_loc_m. f_equal. lia.
  - replace (Z.max ex _) with ex by lia. rewrite Z.sub_diag, Z.shiftr_0_r.
    split; [reflexivity|apply shr_record_of_loc_m].
Qed.

Lemma round_nearest_even_bounds (m : Z) (l : location) :
  m <= round_nearest_even m l <= m + 1.
Proof. destruct l as [|[]]; simpl; try destruct (Z.even m); lia. Qed.

Lemma bounded_mantissa (m : positive) (e : Z) :
  bounded prec emax m e = true -> Zpos m < 2 ^ 53 /\ -1074 <= e.
Proof.
  unfold bounded, canonical_mantissa. intros H.
  apply andb_prop in H as [H _]. apply Z.eqb_eq in H.
  unfold fexp, emin, prec, emax in H.
  pose proof (Zdigits2_bounds (Zpos m) eq_refl) as [_ Hub].
  change (Zdigits2 (Zpos m)) with (Zpos (digits2_pos m)) in Hub.
  split; [|lia].
  eapply Z.lt_le_trans; [exact Hub|].
  apply Z.pow_le_mono_r; lia.
Qed.

Lemma shiftr_lt (a n b : Z) :
  0 <= a -> 0 <= n -> 0 < b -> a < 2 ^ n * b -> Z.shiftr a n < b.
Proof.
  intros Ha Hn Hb Hlt. rewrite Z.shiftr_div_pow2 by lia.
  apply Z.div_lt_upper_bound; [apply Z.pow_pos_nonneg; lia|exact Hlt].
Qed.

Lemma SFmul_100_bounds (m : positive) (e : Z) :
  bounded prec emax m e = true ->
  e <= -53 ->
  SFleb (S754_zero false) (SF64mul (S754_finite false m e) SF100) = true /\
  SFleb (SF64mul (S754_finite false m e) SF100) SF100 = true.
Proof.
  intros Hb He. destruct (bounded_mantissa m e Hb) as [Hm Hemin].
  unfold SF64mul, SFmul, SF100, binary_round_aux. simpl xorb.
  set (M := Zpos (m * 7036874417766400)).
  set (E := e + -46).
  assert (HM : M = Zpos m * 7036874417766400) by reflexivity.
  assert (HM0 : 0 < M) by reflexivity.
  pose proof (Zdigits2_bounds M HM0) as [HDl HDu].
  assert (HD53 : 53 <= Zdigits2 M).
  { destruct (Z_lt_le_dec (Zdigits2 M) 53) as [Hlt|]; [|lia]. exfalso.
    assert (2 ^ Zdigits2 M <= 2 ^ 52) by (apply Z.pow_le_mono_r; lia). lia. }
  assert (HD106 : Zdigits2 M <= 106).
  { apply Zdigits2_le; [lia|lia|]. change (2 ^ 106) with (2 ^ 53 * 2 ^ 53). nia. }
  destruct (shr_fexp_spec M E loc_Exact (Z.lt_le_incl _ _ HM0)) as [He1 Hm1].
  destruct (shr_fexp prec emax M E loc_Exact) as [mrs1 e1].
  simpl fst in *. simpl snd in *. rewrite <- He1 in Hm1.
  unfold fexp, emin, prec, emax in He1.
  assert (Hn1 : Zdigits2 M - 53 <= e1 - E) by lia.
  assert (He1le : e1 <= -46) by (subst E; lia).
  assert (Hm1nn : 0 <= shr_m mrs1) by (rewrite Hm1; apply Z.shiftr_nonneg; lia).
  assert (Hm1lt : shr_m mrs1 < 2 ^ 53).
  { rewrite Hm1. apply shiftr_lt; try lia.
    eapply Z.lt_le_trans; [exact HDu|].
    replace (Zdigits2 M) with ((Zdigits2 M - 53) + 53) at 1 by lia.
    rewrite Z.pow_add_r by lia.
    apply Z.mul_le_mono_nonneg_r; [lia|]. apply Z.pow_le_mono_r; lia. }
  assert (Hm1A : e1 = -46 -> shr_m mrs1 < 7036874417766400).
  { intros Heq. rewrite Hm1. apply shiftr_lt; try lia.
    assert (Hn : 53 <= e1 - E) by (subst E; lia).
    assert (2 ^ 53 <= 2 ^ (e1 - E)) by (apply Z.pow_le_mono_r; lia).
    nia. }
  pose proof (round_nearest_even_bounds (shr_m mrs1) (loc_of_shr_record mrs1)) as Hr.
  set (mr := round_nearest_even (shr_m mrs1) (loc_of_shr_record mrs1)) in *.
  assert (Hmr0 : 0 <= mr) by lia.
  destruct (shr_fexp_spec mr e1 loc_Exact Hmr0) as [He2 Hm2].
  destruct (shr_fexp prec emax mr e1 loc_Exact) as [mrs2 e2].
  simpl fst in *. simpl snd in *. rewrite <- He2 in Hm2.
  unfold fexp, emin, prec, emax in He2.
  assert (HD2 : Zdigits2 mr <= 54).
  { destruct (Z.eq_dec mr 0) as [Hz|]; [rewrite Hz; simpl; lia|].
    apply Zdigits2_le; [lia|lia|]. change (2 ^ 54) with (2 * 2 ^ 53). lia. }
  assert (HD2A : e1 = -46 -> Zdigits2 mr <= 53).
  { intros Heq. specialize (Hm1A Heq).
    destruct (Z.eq_dec mr 0) as [Hz|]; [rewrite Hz; simpl; lia|].
    apply Zdigits2_le; [lia|lia|]. change (2 ^ 53) with 9007199254740992. lia. }
  assert (Hm2nn : 0 <= shr_m mrs2) by (rewrite Hm2; apply Z.shiftr_nonneg; lia).
  assert (He2le : e2 <= -46).
  { destruct (Z.eq_dec e1 (-46)) as [Heq|]; [specialize (HD2A Heq)|]; lia. }
  assert (Hm2le : e2 = -46 -> shr_m mrs2 <= 7036874417766400).
  { intros Heq. destruct (Z.eq_dec e1 (-46)) as [Heq1|Hne].
    - specialize (HD2A Heq1). specialize (Hm1A Heq1).
      rewrite Hm2. replace (e2 - e1) with 0 by lia. rewrite Z.shiftr_0_r. lia.
    - assert (Hn2 : 1 <= e2 - e1) by lia.
      assert (Z.shiftr mr (e2 - e1) < 4503599627370497); [|lia].
      apply shiftr_lt; try lia.
      assert (2 ^ 1 <= 2 ^ (e2 - e1)) by (apply Z.pow_le_mono_r; lia).
      change (2 ^ 1) with 2 in *. change (2 ^ 53) with 9007199254740992 in *. nia. }
  destruct (shr_m mrs2) as [|m2|m2]; [split; reflexivity| |lia].
  assert (Hfin : (e2 <=? emax - prec) = true)
    by (apply Z.leb_le; unfold emax, prec; lia).
  rewrite Hfin.
  split; [reflexivity|].
  unfold SFleb, SFcompare.
  destruct (Z.compare_spec e2 (-46)) as [Heq|Hlt|Hgt];
    [|reflexivity|exfalso; clear - He2le Hgt; lia].
  specialize (Hm2le Heq).
  destruct (Pos.compare_cont Eq m2 7036874417766400) eqn:Hc; try reflexivity.
  exfalso. apply (proj1 (Pos.compare_gt_iff m2 7036874417766400)) in Hc.
  apply Pos2Z.pos_lt_pos in Hc. clear - Hm2le Hc. lia.
Qed.

Lemma Prim2SF_100 : Prim2SF 100%float = SF100.
Proof. vm_compute. reflexivity. Qed.

Lemma Prim2SF_1 : Prim2SF 1%float = S754_finite false 4503599627370496 (-52).
Proof. vm_compute. reflexivity. Qed.

Lemma Prim2SF_0 : Prim2SF 0%float = S754_zero false.
Proof. vm_compute. reflexivity. Qed.

(** The product with 100 of a binary64 number of [0,1] lies in [0,100]:
    rounding to nearest does not leave the interval. *)
Lemma mul_100_bounds (p : float) :
  (0 <=? p)%float = true ->
  (p <=? 1)%float = true ->
  (0 <=? p * 100)%float = true /\ (p * 100 <=? 100)%float = true.
Proof.
  rewrite !leb_spec, mul_spec, Prim2SF_100, Prim2SF_1, Prim2SF_0.
  pose proof (Prim2SF_valid p) as Hv.
  destruct (Prim2SF p) as [s|s| |s m e]; intros H0 H1.
  - destruct s; split; vm_compute; reflexivity.
  - destruct s; discriminate.
  - discriminate.
  - destruct s; [discriminate|].
    simpl in Hv. destruct (bounded_mantissa m e Hv) as [Hm Hemin].
    unfold SFleb, SFcompare in H1.
    destruct (Z.compare_spec e (-52)) as [Heq|Hlt|Hgt]; [| |discriminate].
    + destruct (Pos.compare_cont Eq m 4503599627370496) eqn:Hc; try discriminate.
      * apply (proj1 (Pos.compare_eq_iff m 4503599627370496)) in Hc.
        clear H0 H1 Hv Hm Hemin. subst e m.
        split; vm_compute; reflexivity.
      * exfalso. apply (proj1 (Pos.compare_lt_iff m 4503599627370496)) in Hc.
        apply Pos2Z.pos_lt_pos in Hc. clear H0 H1.
        unfold bounded, canonical_mantissa in Hv.
        apply andb_prop in Hv as [Hv _]. apply Z.eqb_eq in Hv.
        unfold fexp, emin, prec, emax in Hv.
        assert (Hd : Zdigits2 (Zpos m) <= 52).
        { apply Zdigits2_le; [reflexivity|discriminate|].
          change (2 ^ 52) with 4503599627370496. exact Hc. }
        change (Zdigits2 (Zpos m)) with (Zpos (digits2_pos m)) in Hd.
        clear - Hv Hd Heq. lia.
    + apply SFmul_100_bounds; [exact Hv|clear - Hlt; lia].
Qed.

(** ** The order of binary64 numbers *)

Lemma SFcompare_swap (a b : spec_float) (c : comparison) :
  SFcompare a b = Some c -> SFcompare b a = Some (CompOpp c).
Proof.
  destruct a as [sa|sa| |sa ma ea], b as [sb|sb| |sb mb eb]; simpl;
    try discriminate; intros [= <-];
    try (destruct sa; reflexivity); try (destruct sb; reflexivity);
    try (destruct sa, sb; reflexivity).
  destruct sa, sb; try reflexivity;
    rewrite (Z.compare_antisym ea eb);
    destruct (ea ?= eb); simpl; try reflexivity;
    rewrite <- (Pos.compare_cont_antisym ma mb Eq : CompOpp (Pos.compare_cont Eq ma mb) = Pos.compare_cont Eq mb ma);
    try rewrite CompOpp_involutive; reflexivity.
Qed.

Lemma SFcompare_refl (a : spec_float) :
  a <> S754_nan -> SFcompare a a = Some Eq.
Proof.
  destruct a as [s|s| |s m e]; simpl; intros Ha; try congruence.
  - destruct s; reflexivity.
  - rewrite Z.compare_refl.
    change (Pos.compare_cont Eq m m) with (Pos.compare m m).
    rewrite Pos.compare_refl. destruct s; reflexivity.
Qed.

Lemma SFleb_not_nan (a b : spec_float) :
  SFleb a b = true -> a <> S754_nan /\ b <> S754_nan.
Proof.
  unfold SFleb. destruct a, b; simpl; try discriminate; intros _; split; discriminate.
Qed.

Lemma SFleb_of_not_ltb (a b : spec_float) :
  a <> S754_nan -> b <> S754_nan ->
  SFltb a b = false -> SFleb b a = true.
Proof.
  intros Ha Hb. unfold SFltb, SFleb.
  destruct (SFcompare a b) as [c|] eqn:Hc.
  - rewrite (SFcompare_swap a b c Hc). destruct c; simpl; congruence.
  - destruct a, b; simpl in Hc; congruence.
Qed.

Lemma SFleb_of_ltb (a b : spec_float) : SFltb a b = true -> SFleb a b = true.
Proof. unfold SFltb, SFleb. destruct (SFcompare a b) as [[]|]; congruence. Qed.

Lemma lex_compare (e1 : Z) (m1 : positive) (e2 : Z) (m2 : positive) :
  match
    match e1 ?= e2 with
    | Eq => Pos.compare_cont Eq m1 m2
    | Lt => Lt
    | Gt => Gt
    end
  with
  | Gt => ~ lex_le e1 m1 e2 m2
  | _ => lex_le e1 m1 e2 m2
  end.
Proof.
  unfold lex_le. destruct (Z.compare_spec e1 e2) as [He|He|He]; [|lia|lia].
  change (Pos.compare_cont Eq m1 m2) with (Pos.compare m1 m2).
  destruct (Pos.compare_spec m1 m2) as [Hm|Hm|Hm].
  - subst. right. split; [reflexivity|apply Z.le_refl].
  - right. split; [exact He|]. apply Z.lt_le_incl, Pos2Z.pos_lt_pos, Hm.
  - intros [H|[_ H]]; [lia|]. apply Pos2Z.pos_lt_pos in Hm. lia.
Qed.

Lemma lex_le_trans e1 m1 e2 m2 e3 m3 :
  lex_le e1 m1 e2 m2 -> lex_le e2 m2 e3 m3 -> lex_le e1 m1 e3 m3.
Proof. unfold lex_le. lia. Qed.

Lemma SFleb_finite (s : bool) (m1 : positive) (e1 : Z) (m2 : positive) (e2 : Z) :
  SFleb (S754_finite s m1 e1) (S754_finite s m2 e2) = true <->
  if s then lex_le e2 m2 e1 m1 else lex_le e1 m1 e2 m2.
Proof.
  unfold SFleb, SFcompare.
  pose proof (lex_compare e1 m1 e2 m2) as H12.
  pose proof (lex_compare e2 m2 e1 m1) as H21.
  rewrite (Z.compare_antisym e1 e2) in H21.
  rewrite <- (Pos.compare_cont_antisym m1 m2 Eq : CompOpp (Pos.compare_cont Eq m1 m2) = Pos.compare_cont Eq m2 m1) in H21.
  destruct s; destruct (e1 ?= e2); simpl in *;
    try destruct (Pos.compare_cont Eq m1 m2); simpl in *;
    split; intros H; try reflexivity; try assumption; try discriminate;
    try (exfalso; tauto).
Qed.

Lemma SFleb_trans (a b c : spec_float) :
  SFleb a b = true -> SFleb b c = true -> SFleb a c = true.
Proof.
  destruct a as [sa|sa| |sa ma ea], b as [sb|sb| |sb mb eb],
    c as [sc|sc| |sc mc ec];
    try (unfold SFleb; simpl; discriminate);
    try (unfold SFleb; simpl; intros _ _; reflexivity);
    try (unfold SFleb; simpl; destruct sa, sb, sc; simpl; congruence).
  destruct sa, sb, sc;
    try (unfold SFleb; simpl; congruence).
  - rewrite !SFleb_finite. intros H1 H2. eapply lex_le_trans; eassumption.
  - rewrite !SFleb_finite. intros H1 H2. eapply lex_le_trans; eassumption.
Qed.

End Binary64.

(** ** The order on [float] *)

Lemma leb_trans (a b c : float) :
  (a <=? b)%float = true -> (b <=? c)%float = true -> (a <=? c)%float = true.
Proof. rewrite !leb_spec. apply SFleb_trans. Qed.

Lemma leb_of_ltb (a b : float) :
  (a <? b)%float = true -> (a <=? b)%float = true.
Proof. rewrite ltb_spec, leb_spec. apply SFleb_of_ltb. Qed.

(** A number, as opposed to NaN, compares equal to itself. *)
Lemma leb_of_not_ltb (a b : float) :
  (a <=? a)%float = true -> (b <=? b)%float = true ->
  (a <? b)%float = false -> (b <=? a)%float = true.
Proof.
  rewrite ltb_spec, !leb_spec. intros Ha Hb.
  apply SFleb_not_nan in Ha as [Ha _]. apply SFleb_not_nan in Hb as [Hb _].
  by apply SFleb_of_not_ltb.
Qed.

Lemma leb_refl_l (a b : float) :
  (a <=? b)%float = true -> (a <=? a)%float = true.
Proof.
  rewrite !leb_spec. intros H. apply SFleb_not_nan in H as [Ha _].
  unfold SFleb. by rewrite SFcompare_refl.
Qed.

Lemma probability_number (p : float) : probability p -> (p <=? p)%float = true.
Proof. intros [_ H1]. by apply leb_refl_l in H1. Qed.

(** ** The builtin maximum *)

Lemma max_from_In (items : list float) (best : float) :
  In (max_from best items) (best :: items).
Proof.
  revert best. induction items as [|x items IH]; intros best; simpl; [by left|].
  destruct (IH (if (best <? x)%float then x else best)) as [H|H].
  - destruct (best <? x)%float; rewrite <- H; [by right; left|by left].
  - by right; right.
Qed.

Lemma max_from_ge_best (items : list float) (best : float) :
  (best <=? best)%float = true ->
  Forall (fun x => (x <=? x)%float = true) items ->
  (best <=? max_from best items)%float = true.
Proof.
  revert best. induction items as [|x items IH]; intros best Hb Hall; simpl;
    [done|].
  apply Forall_cons in Hall as [Hx Hall].
  destruct (best <? x)%float eqn:Hlt; [|by apply IH].
  apply leb_trans with x; [by apply leb_of_ltb|by apply IH].
Qed.

Lemma max_from_upper (items : list float) (best x : float) :
  (best <=? best)%float = true ->
  Forall (fun x => (x <=? x)%float = true) items ->
  In x items -> (x <=? max_from best items)%float = true.
Proof.
  revert best. induction items as [|y items IH]; intros best Hb Hall; simpl;
    [easy|].
  apply Forall_cons in Hall as [Hy Hall].
  assert (Hbest : ((if (best <? y)%float then y else best) <=?
                   (if (best <? y)%float then y else best))%float = true)
    by (by destruct (best <? y)%float).
  intros [->|Hin]; [|by apply IH].
  destruct (best <? x)%float eqn:Hlt.
  - by apply max_from_ge_best.
  - apply leb_trans with best; [by apply leb_of_not_ltb|by apply max_from_ge_best].
Qed.

(** On a row of probabilities the builtin maximum is an entry that every
    entry is at most, and its product with 100 lies in [0,100]. *)
Lemma max_from_probabilities (p : float) (ps : list float) :
  Forall probability (p :: ps) ->
  In (max_from p ps) (p :: ps) /\
  (forall q, In q (p :: ps) -> (q <=? max_from p ps)%float = true) /\
  (0 <=? max_from p ps * 100)%float = true /\
  (max_from p ps * 100 <=? 100)%float = true.
Proof.
  intros Hall. pose proof (max_from_In ps p) as Hin.
  assert (Hnum : Forall (fun x => (x <=? x)%float = true) (p :: ps)).
  { eapply Forall_impl; [exact Hall|]. apply probability_number. }
  apply Forall_cons in Hnum as [Hp Hps].
  split; [exact Hin|]. split.
  - intros q [<-|Hq]; [by apply max_from_ge_best|by apply max_from_upper].
  - rewrite Forall_forall in Hall. apply list_elem_of_In, Hall in Hin.
    destruct Hin as [H0 H1]. by apply mul_100_bounds.
Qed.

(** * Properties of the script *)

Ltac unfold_script :=
  unfold make_prediction, prepare_input, determine_gender, load_model_body,
    model_predict, model_predict_proba, joblib_load, os_path_exists,
    session_has, session_set, session_get, st_button, st_slider, st_error,
    st_markdown, try_except, bind, lift, emit, raise, ret, get_world,
    put_world in *.

(** ** The gender selection *)

Lemma determine_gender_run (f m : bool) (w : World) :
  determine_gender f m w =
  (Return tt,
   with_session
     (<["gender_sel" := chosen f m (session_state w)]> (session_state w)) w,
   []).
Proof.
  destruct w as [d ss c]. unfold_script. unfold with_session, chosen. simpl.
  destruct (ss !! "gender_sel") as [g|] eqn:Hg; simpl.
  - destruct f, m; simpl; try reflexivity.
    by rewrite insert_id.
  - destruct f, m; simpl; by rewrite ?insert_insert_eq.
Qed.

Lemma chosen_widgets_written (f m : bool) (ui : Widgets)
    (ss : gmap string Value) :
  chosen f m (widgets_written ui ss) = chosen f m ss.
Proof.
  unfold chosen, widgets_written. by rewrite !lookup_insert_ne.
Qed.

Lemma session_get_run (k : string) (v : Value) (w : World) :
  session_state w !! k = Some v -> session_get k w = (Return v, w, []).
Proof. intros H. unfold_script. by rewrite H. Qed.

Lemma prepare_input_run (age : Z) (gender_sel : Value) (w : World) :
  session_state w !! "gender_sel" = Some gender_sel ->
  prepare_input age w =
  (Return [("Age", [age]); ("Gender", [gender_encoded gender_sel])], w, []).
Proof. intros H. unfold_script. by rewrite H. Qed.

(** ** The prediction block *)

(** The [try] statement always completes, leaves the world as it is, and
    what it logs does not depend on the world. *)
Lemma make_prediction_pure (m : Classifier) (df : DataFrame) (w w' : World) :
  make_prediction m df w =
  (Return tt, w, (make_prediction m df w').2).
Proof.
  unfold_script.
  destruct (predict m df) as [[|label labels]|e]; simpl; try reflexivity.
  destruct (predict_proba m df) as [[|[|p ps] rows]|e]; reflexivity.
Qed.

Lemma make_prediction_card (m : Classifier) (df : DataFrame) (w : World)
    (label : string) (labels : list string) (p : float) (ps : list float)
    (rows : list (list float)) :
  predict m df = Return (label :: labels) ->
  predict_proba m df = Return ((p :: ps) :: rows) ->
  make_prediction m df w =
  (Return tt, w,
   [ModelPredict df; ModelPredictProba df;
    Render (ResultCard (emoji_of label) label (max_from p ps * 100)%float)]).
Proof. intros Hl Hp. unfold_script. by rewrite Hl, Hp. Qed.

Lemma emoji_of_unknown (label : string) :
  ~ known_label label -> emoji_of label = "🎯".
Proof.
  intros Hun. unfold emoji_of, emoji_map, known_label in *.
  rewrite !lookup_insert_ne, lookup_singleton_ne by (intros <-; tauto).
  reflexivity.
Qed.

(** ** Loading the model *)

Lemma load_model_body_absent (w : World) :
  disk w !! "model.pkl" = None ->
  load_model_body w = (Return None, w, [OsPathExists "model.pkl"]).
Proof. intros H. unfold_script. simpl. by repeat (rewrite H; simpl). Qed.

Lemma load_model_body_corrupt (w : World) (e : Exception) :
  disk w !! "model.pkl" = Some (Corrupt e) ->
  load_model_body w =
  (Return None, w,
   [OsPathExists "model.pkl"; JoblibLoad "model.pkl";
    Render (StError ("Error loading model: " ++ str e))]).
Proof. intros H. unfold_script. simpl. by repeat (rewrite H; simpl). Qed.

Lemma load_model_body_fitted (w : World) (m : Classifier) :
  disk w !! "model.pkl" = Some (Fitted m) ->
  load_model_body w =
  (Return (Some m), w, [OsPathExists "model.pkl"; JoblibLoad "model.pkl"]).
Proof. intros H. unfold_script. simpl. by repeat (rewrite H; simpl). Qed.

Lemma load_model_available (m : Classifier) (w : World) :
  available m w ->
  load_model w =
  (Return (Some m), with_cache (Some (Some m, [])) w, load_calls w).
Proof.
  destruct w as [d ss c]. unfold available, load_model, st_cache_resource,
    load_calls, with_cache. simpl.
  intros [->|[-> Hd]]; [reflexivity|].
  by rewrite (load_model_body_fitted _ m).
Qed.

Lemma load_model_unavailable (w : World) :
  unavailable w ->
  exists calls,
    load_model w = (Return None, with_cache (Some (None, [])) w, calls) /\
    shown calls = [] /\
    (forall df, ModelPredict df ∉ calls).
Proof.
  destruct w as [d ss c]. unfold unavailable, load_model, st_cache_resource,
    with_cache. simpl.
  intros [Hd [->| ->]].
  - rewrite load_model_body_absent by done.
    eexists; split; [reflexivity|]. split; [reflexivity|].
    intros df Hin. apply list_elem_of_singleton in Hin. discriminate.
  - exists []. split; [reflexivity|]. split; [reflexivity|].
    intros df Hin. by apply not_elem_of_nil in Hin.
Qed.

Lemma load_model_run (w : World) :
  exists v els evs0,
    load_model w = (Return v, with_cache (Some (v, els)) w, evs0) /\
    Forall (fun ev => classifier_call ev = false) evs0 /\
    (is_Some (resource_cache w) -> Forall (fun ev => disk_call ev = false) evs0).
Proof.
  destruct w as [d ss [[v els]|]]; unfold load_model, st_cache_resource; simpl.
  - exists v, els, (Render <$> els). split; [reflexivity|].
    split; [|intros _]; apply Forall_fmap, Forall_true; done.
  - destruct (d !! "model.pkl") as [[e|m]|] eqn:Hd.
    + rewrite (load_model_body_corrupt _ e) by done.
      do 3 eexists. split; [reflexivity|].
      split; [repeat constructor|]. intros [? ?]. discriminate.
    + rewrite (load_model_body_fitted _ m) by done.
      do 3 eexists. split; [reflexivity|].
      split; [repeat constructor|]. intros [? ?]. discriminate.
    + rewrite load_model_body_absent by done.
      do 3 eexists. split; [reflexivity|].
      split; [repeat constructor|]. intros [? ?]. discriminate.
Qed.

(** ** One run *)

(** A run, given what [load_model] returned. *)
Lemma main_run (ui : Widgets) (w : World) (v : option Classifier)
    (c : option (option Classifier * list Element)) (evs0 : list Event) :
  load_model w = (Return v, with_cache c w, evs0) ->
  main ui w =
  (Return tt, with_session (session_after v ui w) (with_cache c w),
   (evs0 ++ page v ui w)%list).
Proof.
  intros Hl. unfold main. unfold bind at 1. rewrite Hl.
  destruct v as [m|].
  - unfold st_markdown, st_slider, st_button, session_set, get_world,
      put_world, emit, ret.
    unfold bind. cbn [session_state disk resource_cache with_cache].
    rewrite determine_gender_run.
    cbn [session_state disk resource_cache with_session].
    fold (widgets_written ui (session_state w)).
    rewrite chosen_widgets_written.
    set (sel := chosen _ _ _).
    set (w1 := with_session _ _).
    assert (Hsel : session_state w1 !! "gender_sel" = Some sel)
      by apply lookup_insert_eq.
    rewrite (session_get_run _ _ _ Hsel).
    destruct (predict_clicked ui) eqn:Hgo.
    + rewrite (prepare_input_run _ _ _ Hsel).
      rewrite (make_prediction_pure m _ w1 w).
      unfold page. rewrite Hgo. reflexivity.
    + unfold page. rewrite Hgo. reflexivity.
  - unfold_script. destruct w. reflexivity.
Qed.

Lemma main_available (m : Classifier) (ui : Widgets) (w : World) :
  available m w ->
  main ui w =
  (Return tt, after_run m ui w,
   (load_calls w ++
    form_events (slider_age ui)
      (py_str
         (chosen (female_clicked ui) (male_clicked ui) (session_state w))) ++
    (if predict_clicked ui
     then (make_prediction m (input_of ui w) w).2 else []) ++
    [Render Footer])%list).
Proof.
  intros Hav. apply (main_run ui w (Some m)), load_model_available, Hav.
Qed.

Lemma main_unavailable (ui : Widgets) (w : World) :
  unavailable w ->
  exists evs,
    main ui w = (Return tt, with_cache (Some (None, [])) w, evs) /\
    shown evs = [Header; ModelNotFound] /\
    (forall df, ModelPredict df ∉ evs).
Proof.
  intros Hun. destruct (load_model_unavailable w Hun) as (calls & Hl & Hs & Hc).
  unfold main. unfold bind at 1. rewrite Hl. unfold_script. simpl.
  eexists; split; [reflexivity|]. split.
  - unfold shown in *. rewrite omap_app, Hs. reflexivity.
  - intros df Hin. apply elem_of_app in Hin as [Hin|Hin]; [by apply (Hc df)|].
    apply elem_of_cons in Hin as [Hin|Hin]; [discriminate|].
    apply list_elem_of_singleton in Hin. discriminate.
Qed.

Lemma make_prediction_calls (m : Classifier) (df : DataFrame) (w : World) :
  exists rest,
    (make_prediction m df w).2 = ModelPredict df :: rest /\
    (forall df', ModelPredict df' ∉ rest).
Proof.
  unfold_script.
  destruct (predict m df) as [[|label labels]|e]; simpl;
    [| destruct (predict_proba m df) as [[|[|p ps] rows]|e]; simpl |];
    eexists; (split; [reflexivity|]); intros df' Hin;
    repeat (apply elem_of_cons in Hin as [Hin|Hin]; [discriminate|]);
    by apply not_elem_of_nil in Hin.
Qed.

Lemma after_run_available (m : Classifier) (ui : Widgets) (w : World) :
  available m (after_run m ui w).
Proof. by left. Qed.

Lemma main_any (ui : Widgets) (w : World) :
  exists v els evs0,
    main ui w =
      (Return tt,
       with_session (session_after v ui w) (with_cache (Some (v, els)) w),
       (evs0 ++ page v ui w)%list) /\
    Forall (fun ev => classifier_call ev = false) evs0 /\
    (is_Some (resource_cache w) -> Forall (fun ev => disk_call ev = false) evs0).
Proof.
  destruct (load_model_run w) as (v & els & evs0 & Hl & Hc & Hd).
  exists v, els, evs0. split; [by apply main_run|done].
Qed.

Lemma page_no_disk_call (v : option Classifier) (ui : Widgets) (w : World) :
  Forall (fun ev => disk_call ev = false) (page v ui w).
Proof.
  destruct v as [m|]; [|repeat constructor].
  unfold page. apply Forall_app. split; [repeat constructor|].
  apply Forall_app. split; [|repeat constructor].
  destruct (predict_clicked ui); [|constructor].
  unfold_script.
  destruct (predict m _) as [[|label labels]|e]; simpl;
    [| destruct (predict_proba m _) as [[|[|p ps] rows]|e]; simpl |];
    repeat constructor.
Qed.

Lemma page_no_classifier_call (v : option Classifier) (ui : Widgets) (w : World) :
  predict_clicked ui = false ->
  Forall (fun ev => classifier_call ev = false) (page v ui w).
Proof.
  intros Hgo. destruct v as [m|]; [|repeat constructor].
  unfold page. rewrite Hgo. repeat constructor.
Qed.

Lemma main_keeps_cache_set (ui : Widgets) (w : World) :
  is_Some (resource_cache (main ui w).1.2).
Proof.
  destruct (main_any ui w) as (v & els & evs0 & Hm & _). rewrite Hm. simpl. eauto.
Qed.

Lemma main_frame (ui : Widgets) (w : World) :
  disk (main ui w).1.2 = disk w /\
  (forall k, k <> "gender_sel" -> k <> "female" -> k <> "male" ->
             session_state (main ui w).1.2 !! k = session_state w !! k).
Proof.
  destruct (main_any ui w) as (v & els & evs0 & Hm & _). rewrite Hm. simpl.
  split; [reflexivity|]. intros k Hk Hf Hmale.
  destruct v; simpl; [|reflexivity].
  unfold widgets_written. by rewrite !lookup_insert_ne.
Qed.

Lemma main_selection_ok (ui : Widgets) (w : World) :
  selection_ok w -> selection_ok (main ui w).1.2.
Proof.
  intros Hok. destruct (main_any ui w) as (v & els & evs0 & Hm & _).
  rewrite Hm. unfold selection_ok in *. simpl.
  destruct v; simpl; [|done]. rewrite lookup_insert_eq. right. unfold chosen.
  destruct (female_clicked ui); [by left|].
  destruct (male_clicked ui); [by right|].
  destruct Hok as [-> | [-> | ->]]; simpl; auto.
Qed.

Lemma predict_calls_app (evs1 evs2 : list Event) :
  predict_calls (evs1 ++ evs2) = (predict_calls evs1 ++ predict_calls evs2)%list.
Proof. apply omap_app. Qed.

Lemma predict_calls_load_calls (w : World) : predict_calls (load_calls w) = [].
Proof. unfold load_calls. by destruct (resource_cache w). Qed.

Lemma predict_calls_make_prediction (m : Classifier) (df : DataFrame) (w : World) :
  predict_calls (make_prediction m df w).2 = [df].
Proof.
  unfold_script.
  destruct (predict m df) as [[|label labels]|e]; simpl; try reflexivity.
  destruct (predict_proba m df) as [[|[|p ps] rows]|e]; reflexivity.
Qed.

(** With the artifact at hand: where the selection ends up, what the run
    shows as selected and which frames [predict] is called on. *)
Lemma main_available_summary (m : Classifier) (ui : Widgets) (w : World) :
  available m w ->
  let g := chosen (female_clicked ui) (male_clicked ui) (session_state w) in
  (main ui w).1.1 = Return tt /\
  available m (main ui w).1.2 /\
  session_state (main ui w).1.2 !! "gender_sel" = Some g /\
  Render (Selected (py_str g)) ∈ (main ui w).2 /\
  predict_calls (main ui w).2 =
    if predict_clicked ui
    then [[("Age", [slider_age ui]); ("Gender", [gender_encoded g])]]
    else [].
Proof.
  intros Hav g. rewrite (main_available m ui w Hav). cbn [fst snd]. fold g.
  split; [reflexivity|]. split; [by left|].
  split; [apply lookup_insert_eq|]. split.
  - apply elem_of_app. right. apply elem_of_app. left. unfold form_events.
    do 9 apply list_elem_of_further. apply list_elem_of_here.
  - rewrite !predict_calls_app, predict_calls_load_calls.
    destruct (predict_clicked ui); [|reflexivity].
    rewrite predict_calls_make_prediction. reflexivity.
Qed.

Lemma main_undeserializable (e : Exception) (ui : Widgets) (w : World) :
  undeserializable e w ->
  undeserializable e (main ui w).1.2 /\
  (main ui w).1.1 = Return tt /\
  (exists calls,
      (main ui w).2 =
        (calls ++ [Render (StError ("Error loading model: " ++ str e));
                   Render Header; Render ModelNotFound])%list /\
      Forall (fun ev => disk_call ev = true) calls).
Proof.
  intros [Hd Hc].
  assert (Hl : exists calls,
             load_model w =
               (Return None,
                with_cache (Some (None, [StError ("Error loading model: " ++ str e)])) w,
                (calls ++ [Render (StError ("Error loading model: " ++ str e))])%list) /\
             Forall (fun ev => disk_call ev = true) calls).
  { destruct w as [d ss c]. simpl in *. unfold load_model, st_cache_resource. simpl.
    destruct Hc as [-> | ->].
    - rewrite (load_model_body_corrupt _ e) by done.
      exists [OsPathExists "model.pkl"; JoblibLoad "model.pkl"].
      split; [reflexivity|repeat constructor].
    - exists []. split; [reflexivity|constructor]. }
  destruct Hl as (calls & Hl & Hcalls).
  rewrite (main_run ui w None _ _ Hl). cbn [fst snd].
  split; [|split; [reflexivity|]].
  - split; [done|by right].
  - exists calls. split; [|done]. unfold page. by rewrite <- app_assoc.
Qed.

(** ** Sequences of runs *)

Lemma reruns_cons (ui : Widgets) (uis : list Widgets) (w : World) :
  reruns (ui :: uis) w =
  (((main ui w).1.1, (main ui w).2) :: (reruns uis (main ui w).1.2).1,
   (reruns uis (main ui w).1.2).2).
Proof.
  simpl. destruct (main ui w) as [[r w1] evs]. simpl.
  by destruct (reruns uis w1).
Qed.

Lemma reruns_length (uis : list Widgets) (w : World) :
  length (reruns uis w).1 = length uis.
Proof.
  revert w. induction uis as [|ui uis IH]; intros w; [reflexivity|].
  rewrite reruns_cons. simpl. by rewrite IH.
Qed.

Lemma reruns_unavailable (uis : list Widgets) (w : World) :
  unavailable w ->
  Forall (fun re : Outcome unit * list Event =>
            re.1 = Return tt /\
            shown re.2 = [Header; ModelNotFound] /\
            (forall df, ModelPredict df ∉ re.2))
         (reruns uis w).1.
Proof.
  revert w. induction uis as [|ui uis IH]; intros w Hun; [constructor|].
  rewrite reruns_cons. simpl.
  destruct (main_unavailable ui w Hun) as (evs & Hm & Hs & Hc).
  rewrite Hm. simpl. constructor; [done|].
  apply IH. destruct Hun as [Hd _]. split; [done|by right].
Qed.

Lemma reruns_default_gender (m : Classifier) (uis : list Widgets) (w : World) :
  available m w ->
  session_state w !! "gender_sel" = None \/
  session_state w !! "gender_sel" = Some (PyStr "Female") ->
  Forall (fun ui => female_clicked ui = false /\ male_clicked ui = false) uis ->
  Forall2 (fun ui (re : Outcome unit * list Event) =>
             re.1 = Return tt /\
             Render (Selected "Female") ∈ re.2 /\
             (predict_clicked ui = true ->
              ModelPredict [("Age", [slider_age ui]); ("Gender", [0])] ∈ re.2) /\
             (forall df, ModelPredict df ∈ re.2 ->
                         df = [("Age", [slider_age ui]); ("Gender", [0])]))
          uis (reruns uis w).1.
Proof.
  revert w. induction uis as [|ui uis IH]; intros w Hav Hss Hno; [constructor|].
  apply Forall_cons in Hno as [[Hf Hm] Hno].
  rewrite reruns_cons. cbn [fst snd]. rewrite (main_available m ui w Hav).
  cbn [fst snd].
  assert (Hch : chosen (female_clicked ui) (male_clicked ui) (session_state w)
                = PyStr "Female").
  { unfold chosen. rewrite Hf, Hm. by destruct Hss as [-> | ->]. }
  unfold input_of. rewrite Hch.
  change (gender_encoded (PyStr "Female")) with 0.
  change (py_str (PyStr "Female")) with "Female".
  set (df0 := [("Age", [slider_age ui]); ("Gender", [0])]).
  destruct (make_prediction_calls m df0 w) as (rest & Hev & Hrest).
  constructor.
  - split; [done|]. split; [|split].
    + apply elem_of_app. right. unfold form_events.
      do 9 apply list_elem_of_further. apply list_elem_of_here.
    + intros ->. rewrite Hev.
      apply elem_of_app. right. apply elem_of_app. right.
      apply elem_of_app. left. apply list_elem_of_here.
    + intros df Hin.
      apply elem_of_app in Hin as [Hin|Hin].
      { unfold load_calls in Hin. destruct (resource_cache w);
          [by apply not_elem_of_nil in Hin|].
        repeat (apply elem_of_cons in Hin as [Hin|Hin]; [discriminate|]).
        by apply not_elem_of_nil in Hin. }
      apply elem_of_app in Hin as [Hin|Hin].
      { unfold form_events in Hin.
        repeat (apply elem_of_cons in Hin as [Hin|Hin]; [discriminate|]).
        by apply not_elem_of_nil in Hin. }
      apply elem_of_app in Hin as [Hin|Hin].
      * destruct (predict_clicked ui); [|by apply not_elem_of_nil in Hin].
        rewrite Hev in Hin. apply elem_of_cons in Hin as [Hin|Hin].
        -- by inversion Hin.
        -- by apply Hrest in Hin.
      * apply list_elem_of_singleton in Hin. discriminate.
  - apply IH; [apply after_run_available| |done].
    right. unfold after_run. simpl. rewrite Hch. apply lookup_insert_eq.
Qed.

Lemma reruns_keep_selection (m : Classifier) (uis : list Widgets) (w : World)
    (g : string) :
  available m w ->
  session_state w !! "gender_sel" = Some (PyStr g) ->
  Forall (fun ui => female_clicked ui = false /\ male_clicked ui = false) uis ->
  Forall2 (fun ui (re : Outcome unit * list Event) =>
             re.1 = Return tt /\
             Render (Selected g) ∈ re.2 /\
             predict_calls re.2 =
               if predict_clicked ui
               then [[("Age", [slider_age ui]);
                      ("Gender", [gender_encoded (PyStr g)])]]
               else [])
          uis (reruns uis w).1 /\
  session_state (reruns uis w).2 !! "gender_sel" = Some (PyStr g).
Proof.
  revert w. induction uis as [|ui uis IH]; intros w Hav Hss Hno.
  { split; [constructor|done]. }
  apply Forall_cons in Hno as [[Hf Hm] Hno].
  rewrite reruns_cons. cbn [fst snd].
  destruct (main_available_summary m ui w Hav) as (Hr & Hav' & Hss' & Hsel & Hcalls).
  assert (Hch : chosen (female_clicked ui) (male_clicked ui) (session_state w)
                = PyStr g).
  { unfold chosen. by rewrite Hf, Hm, Hss. }
  rewrite Hch in *.
  destruct (IH _ Hav' Hss' Hno) as [IH1 IH2].
  split; [|exact IH2]. constructor; [|exact IH1]. done.
Qed.

Lemma reruns_no_disk_call (uis : list Widgets) (w : World) :
  is_Some (resource_cache w) ->
  Forall (fun re : Outcome unit * list Event =>
            Forall (fun ev => disk_call ev = false) re.2)
         (reruns uis w).1.
Proof.
  revert w. induction uis as [|ui uis IH]; intros w Hc; [constructor|].
  rewrite reruns_cons. cbn [fst snd]. constructor.
  - destruct (main_any ui w) as (v & els & evs0 & Hm & _ & Hd). rewrite Hm.
    cbn [snd]. apply Forall_app. split; [by apply Hd|apply page_no_disk_call].
  - apply IH, main_keeps_cache_set.
Qed.

(** ** The arithmetic is the program's *)

(** The product is rounded as binary64 rounds it: 0.57 times 100 is the
    number just below 57. *)
Example confidence_is_rounded :
  shown (make_prediction uneven_tree [("Age", [25]); ("Gender", [0])] (fresh ∅)).2 =
  [ResultCard "💥" "Action" 0x1.c7fffffffffffp+5%float].
Proof. reflexivity. Qed.

(** The builtin maximum keeps a leading NaN and passes over a later one. *)
Example max_from_nan :
  PrimFloat.is_nan (max_from nan [0.5; 0.5]%float) = true /\
  max_from 0.5 [nan; 0.5]%float = 0.5%float.
Proof. split; reflexivity. Qed.

(** The two end-to-end scenarios of the specification. *)
Example scenario_1 :
  shown (main (click_predict 25) (fresh sample_disk)).2 =
  [Header; InputCardOpen; SectionTitle; AgeLabel; Slider 18 80 25 1;
   AgeDisplay 25; GenderLabel; Button "👩 Female"; Button "👨 Male";
   Selected "Female"; InputCardClose; Button "🔮 Predict My Interest";
   ResultCard "🎬" "Animation" 70; Footer].
Proof. reflexivity. Qed.

Example scenario_2 :
  cards (main (click_predict 50) (selected "Male")).2 = [("Action", 85%float)].
Proof. reflexivity. Qed.

(** * The claims *)

(** C1. For every age in [18,80] and every gender label among "Female"
    and "Male", the encoding step yields the data frame with the columns
    Age and Gender in this order, the Age column holding the age
    unchanged and the Gender column 0 for "Female" and 1 for "Male". *)
Theorem C1_encoding_of_known_genders (w : World) (age : Z) (gender : string) :
  18 <= age <= 80 ->
  gender = "Female" \/ gender = "Male" ->
  session_state w !! "gender_sel" = Some (PyStr gender) ->
  exists g : Z,
    prepare_input age w = (Return [("Age", [age]); ("Gender", [g])], w, []) /\
    (gender = "Female" -> g = 0) /\
    (gender = "Male" -> g = 1).
Proof.
  intros _ Hg Hss. exists (gender_encoded (PyStr gender)).
  split; [by apply prepare_input_run|].
  destruct Hg as [-> | ->]; split; intros H; try reflexivity; discriminate.
Qed.

Lemma C1_witness :
  exists g : Z,
    prepare_input 50 (selected "Male") =
      (Return [("Age", [50]); ("Gender", [g])], selected "Male", []) /\
    ("Male" = "Female" -> g = 0) /\
    ("Male" = "Male" -> g = 1).
Proof.
  apply (C1_encoding_of_known_genders (selected "Male") 50 "Male");
    [lia | by right | reflexivity].
Defined.

(** C2. For every three-class distribution with entries in [0,1] that the
    classifier returns, the confidence on the result card is the largest
    entry of the distribution multiplied by 100 (the binary64 product,
    nothing else is done to it), and it lies in [0,100]. *)
Theorem C2_confidence_is_max_times_100
    (m : Classifier) (df : DataFrame) (w : World)
    (label : string) (labels : list string)
    (p1 p2 p3 : float) (rows : list (list float)) :
  predict m df = Return (label :: labels) ->
  predict_proba m df = Return ([p1; p2; p3] :: rows) ->
  Forall (fun p => (0 <=? p)%float = true /\ (p <=? 1)%float = true)
         [p1; p2; p3] ->
  exists top : float,
    make_prediction m df w =
      (Return tt, w,
       [ModelPredict df; ModelPredictProba df;
        Render (ResultCard (emoji_of label) label (top * 100)%float)]) /\
    In top [p1; p2; p3] /\
    (forall p, In p [p1; p2; p3] -> (p <=? top)%float = true) /\
    (0 <=? top * 100)%float = true /\
    (top * 100 <=? 100)%float = true.
Proof.
  intros Hl Hp Hrange. exists (max_from p1 [p2; p3]).
  split; [by apply make_prediction_card with labels rows|].
  by apply max_from_probabilities.
Qed.

Lemma C2_witness :
  exists top : float,
    make_prediction uneven_tree [("Age", [25]); ("Gender", [0])] (selected "Female") =
      (Return tt, selected "Female",
       [ModelPredict [("Age", [25]); ("Gender", [0])];
        ModelPredictProba [("Age", [25]); ("Gender", [0])];
        Render (ResultCard (emoji_of "Action") "Action" (top * 100)%float)]) /\
    In top [0.43; 0.57; 0]%float /\
    (forall p, In p [0.43; 0.57; 0]%float -> (p <=? top)%float = true) /\
    (0 <=? top * 100)%float = true /\
    (top * 100 <=? 100)%float = true.
Proof.
  apply (C2_confidence_is_max_times_100 uneven_tree
           [("Age", [25]); ("Gender", [0])] (selected "Female")
           "Action" [] 0.43 0.57 0 []);
    [reflexivity | reflexivity |].
  repeat (constructor; [split; reflexivity|]). constructor.
Defined.

(** C3, as the code has it. For every gender label outside "Female" and
    "Male", the encoding step does not fail: it returns the data frame
    whose Gender column is 1, the encoding of "Male". *)
Theorem C3_unknown_gender_encoded_as_1 (w : World) (age : Z) (gender : string) :
  gender <> "Female" ->
  gender <> "Male" ->
  session_state w !! "gender_sel" = Some (PyStr gender) ->
  prepare_input age w = (Return [("Age", [age]); ("Gender", [1])], w, []).
Proof.
  intros Hf _ Hss. rewrite (prepare_input_run age (PyStr gender) w Hss).
  unfold gender_encoded, py_eq_str. by rewrite (proj2 (String.eqb_neq _ _) Hf).
Qed.

Lemma C3_witness :
  prepare_input 30 (selected "Other") =
  (Return [("Age", [30]); ("Gender", [1])], selected "Other", []).
Proof.
  apply (C3_unknown_gender_encoded_as_1 (selected "Other") 30 "Other");
    [discriminate | discriminate | reflexivity].
Defined.

(** C3, as stated, fails: with the label "Other" the encoding step
    returns a data frame (Gender 1) and raises nothing. *)
Lemma C3_counterexample :
  "Other" <> "Female" /\ "Other" <> "Male" /\
  session_state (selected "Other") !! "gender_sel" = Some (PyStr "Other") /\
  (prepare_input 30 (selected "Other")).1.1 =
    Return [("Age", [30]); ("Gender", [1])] /\
  (forall e, (prepare_input 30 (selected "Other")).1.1 <> Raise e).
Proof.
  split; [discriminate|]. split; [discriminate|].
  split; [reflexivity|]. split; [reflexivity|].
  intros e. discriminate.
Qed.

(** C4, as the code has it. A label outside the three classes is not
    rejected: whenever the classifier returns such a label and a
    non-empty distribution, the prediction block raises nothing and shows
    no error; it shows the result card with that label, the fallback
    glyph and the confidence. *)
Theorem C4_unknown_label_is_shown
    (m : Classifier) (df : DataFrame) (w : World)
    (label : string) (labels : list string)
    (p : float) (ps : list float) (rows : list (list float)) :
  ~ known_label label ->
  predict m df = Return (label :: labels) ->
  predict_proba m df = Return ((p :: ps) :: rows) ->
  make_prediction m df w =
  (Return tt, w,
   [ModelPredict df; ModelPredictProba df;
    Render (ResultCard "🎯" label (max_from p ps * 100)%float)]).
Proof.
  intros Hun Hl Hp.
  rewrite (make_prediction_card m df w label labels p ps rows Hl Hp).
  by rewrite (emoji_of_unknown label Hun).
Qed.

Lemma C4_witness :
  make_prediction comedy_tree [("Age", [25]); ("Gender", [0])] (fresh ∅) =
  (Return tt, fresh ∅,
   [ModelPredict [("Age", [25]); ("Gender", [0])];
    ModelPredictProba [("Age", [25]); ("Gender", [0])];
    Render (ResultCard "🎯" "Comedy"
              (max_from 0.25 [0.5; 0.25] * 100)%float)]).
Proof.
  apply (C4_unknown_label_is_shown comedy_tree
           [("Age", [25]); ("Gender", [0])] (fresh ∅) "Comedy" []
           0.25%float [0.5; 0.25]%float []);
    [ | reflexivity | reflexivity].
  intros [H|[H|H]]; discriminate.
Defined.

(** C4, as stated, fails: when the classifier answers "Comedy" the
    prediction block raises nothing and shows no error, it shows the
    result card for "Comedy". *)
Lemma C4_counterexample :
  ~ known_label "Comedy" /\
  predict comedy_tree [("Age", [25]); ("Gender", [0])] = Return ["Comedy"] /\
  (make_prediction comedy_tree [("Age", [25]); ("Gender", [0])] (fresh ∅)).1.1 =
    Return tt /\
  shown (make_prediction comedy_tree [("Age", [25]); ("Gender", [0])] (fresh ∅)).2 =
    [ResultCard "🎯" "Comedy" 50%float].
Proof.
  split; [intros [H|[H|H]]; discriminate|].
  split; [reflexivity|]. split; reflexivity.
Qed.

(** C5. When the artifact file is absent, the body of [load_model]
    returns [None] without raising, and from a process start every run,
    whatever the widgets report, returns normally, shows the header and
    the model-not-found notice and nothing else (no form, no prediction
    button), and never calls the classifier. *)
Theorem C5_absent_artifact_degrades
    (d : gmap string Pickle) (uis : list Widgets) :
  d !! "model.pkl" = None ->
  load_model_body (fresh d) = (Return None, fresh d, [OsPathExists "model.pkl"]) /\
  length (reruns uis (fresh d)).1 = length uis /\
  Forall (fun re : Outcome unit * list Event =>
            re.1 = Return tt /\
            shown re.2 = [Header; ModelNotFound] /\
            (forall df, ModelPredict df ∉ re.2))
         (reruns uis (fresh d)).1.
Proof.
  intros Hd. split; [by apply load_model_body_absent|].
  split; [apply reruns_length|].
  apply reruns_unavailable. split; [done|by left].
Qed.

Lemma C5_witness :
  load_model_body (fresh ∅) = (Return None, fresh ∅, [OsPathExists "model.pkl"]) /\
  length (reruns [click_predict 25; click_predict 40] (fresh ∅)).1 = 2%nat /\
  Forall (fun re : Outcome unit * list Event =>
            re.1 = Return tt /\
            shown re.2 = [Header; ModelNotFound] /\
            (forall df, ModelPredict df ∉ re.2))
         (reruns [click_predict 25; click_predict 40] (fresh ∅)).1.
Proof.
  apply (C5_absent_artifact_degrades ∅ [click_predict 25; click_predict 40]).
  reflexivity.
Defined.

(** C6. For every exception raised by [predict], or by [predict_proba]
    after [predict] has returned a label, the prediction block catches
    it, shows the error carrying the exception's message, makes each
    classifier call at most once (no retry) and returns normally; the run
    it is part of returns normally as well. *)
Theorem C6_classifier_exception_reported
    (m : Classifier) (df : DataFrame) (w : World) (e : Exception) :
  predict m df = Raise e \/
  (exists label labels,
      predict m df = Return (label :: labels) /\
      predict_proba m df = Raise e) ->
  (exists calls,
      make_prediction m df w =
        (Return tt, w,
         (calls ++ [Render (StError ("Error making prediction: " ++ str e))])%list) /\
      (calls = [ModelPredict df] \/
       calls = [ModelPredict df; ModelPredictProba df])) /\
  (forall ui w0, available m w0 ->
      (main ui w0).1.1 = Return tt /\ last (main ui w0).2 = Some (Render Footer)).
Proof.
  intros H. split.
  - unfold_script. destruct H as [He|(label & labels & Hl & He)].
    + exists [ModelPredict df]. rewrite He. simpl. split; [reflexivity|by left].
    + exists [ModelPredict df; ModelPredictProba df]. rewrite Hl, He. simpl.
      split; [reflexivity|by right].
  - intros ui w0 Hav. rewrite (main_available m ui w0 Hav). split; [reflexivity|].
    cbn [snd]. rewrite !app_assoc. apply last_snoc.
Qed.

Lemma C6_witness :
  (exists calls,
      make_prediction failing_tree [("Age", [25]); ("Gender", [0])] (fresh ∅) =
        (Return tt, fresh ∅,
         (calls ++ [Render (StError ("Error making prediction: " ++ str shape_error))])%list) /\
      (calls = [ModelPredict [("Age", [25]); ("Gender", [0])]] \/
       calls = [ModelPredict [("Age", [25]); ("Gender", [0])];
                ModelPredictProba [("Age", [25]); ("Gender", [0])]])) /\
  (forall ui w0, available failing_tree w0 ->
      (main ui w0).1.1 = Return tt /\ last (main ui w0).2 = Some (Render Footer)).
Proof.
  apply (C6_classifier_exception_reported failing_tree
           [("Age", [25]); ("Gender", [0])] (fresh ∅) shape_error).
  left. reflexivity.
Defined.

(** C8, as the code has it. When the artifact file is present but cannot
    be deserialized, the body of [load_model] tries to load it once,
    shows the error carrying the cause's message and returns [None], the
    value it also returns for an absent file; it raises nothing and
    substitutes no other model. *)
Theorem C8_corrupt_artifact_reported_as_None (w : World) (e : Exception) :
  disk w !! "model.pkl" = Some (Corrupt e) ->
  load_model_body w =
  (Return None, w,
   [OsPathExists "model.pkl"; JoblibLoad "model.pkl";
    Render (StError ("Error loading model: " ++ str e))]).
Proof. apply load_model_body_corrupt. Qed.

Lemma C8_witness :
  load_model_body (fresh corrupt_disk) =
  (Return None, fresh corrupt_disk,
   [OsPathExists "model.pkl"; JoblibLoad "model.pkl";
    Render (StError ("Error loading model: " ++ str unpickling_error))]).
Proof.
  apply (C8_corrupt_artifact_reported_as_None (fresh corrupt_disk)
           unpickling_error).
  reflexivity.
Defined.

(** C8, as stated, fails: for a file that cannot be deserialized the
    loader's result is [None], the very result it gives for an absent
    file, and the run that follows shows the model-not-found notice. *)
Lemma C8_counterexample :
  corrupt_disk !! "model.pkl" = Some (Corrupt unpickling_error) /\
  (load_model_body (fresh corrupt_disk)).1.1 = Return None /\
  (load_model_body (fresh corrupt_disk)).1.1 = (load_model_body (fresh ∅)).1.1 /\
  (load_model (fresh corrupt_disk)).1.1 = (load_model (fresh ∅)).1.1 /\
  last (shown (main (click_predict 25) (fresh corrupt_disk)).2) =
    Some ModelNotFound.
Proof. repeat split; reflexivity. Qed.

(** C9. The glyph is chosen by a fixed table with exactly three entries,
    one per known label, each with a glyph of its own, and every label
    outside the three gets the one fallback glyph. *)
Theorem C9_glyph_lookup (label : string) :
  dom emoji_map = ({[ "Animation"; "Action"; "Drama" ]} : gset string) /\
  emoji_of "Animation" = "🎬" /\
  emoji_of "Action" = "💥" /\
  emoji_of "Drama" = "🎭" /\
  NoDup [emoji_of "Animation"; emoji_of "Action"; emoji_of "Drama"; "🎯"] /\
  (~ known_label label -> emoji_of label = "🎯").
Proof.
  split.
  { unfold emoji_map. rewrite !dom_insert_L, dom_singleton_L. set_solver. }
  split; [reflexivity|]. split; [reflexivity|]. split; [reflexivity|].
  split.
  { compute_done. }
  intros Hun. unfold emoji_of, emoji_map, known_label in *.
  rewrite !lookup_insert_ne, lookup_singleton_ne by (intros <-; tauto).
  reflexivity.
Qed.

Lemma C9_witness :
  dom emoji_map = ({[ "Animation"; "Action"; "Drama" ]} : gset string) /\
  emoji_of "Animation" = "🎬" /\
  emoji_of "Action" = "💥" /\
  emoji_of "Drama" = "🎭" /\
  NoDup [emoji_of "Animation"; emoji_of "Action"; emoji_of "Drama"; "🎯"] /\
  (~ known_label "Comedy" -> emoji_of "Comedy" = "🎯").
Proof. apply (C9_glyph_lookup "Comedy"). Defined.

(** C10. As long as no gender button has been clicked since the session
    began, every run shows "Female" as the selection, and a prediction
    asked for in such a run calls the classifier on the data frame whose
    Gender column is 0, and on no other. *)
Theorem C10_default_gender_is_Female
    (m : Classifier) (uis : list Widgets) (w : World) :
  available m w ->
  session_state w !! "gender_sel" = None ->
  Forall (fun ui => female_clicked ui = false /\ male_clicked ui = false) uis ->
  Forall2 (fun ui (re : Outcome unit * list Event) =>
             re.1 = Return tt /\
             Render (Selected "Female") ∈ re.2 /\
             (predict_clicked ui = true ->
              ModelPredict [("Age", [slider_age ui]); ("Gender", [0])] ∈ re.2) /\
             (forall df, ModelPredict df ∈ re.2 ->
                         df = [("Age", [slider_age ui]); ("Gender", [0])]))
          uis (reruns uis w).1.
Proof.
  intros Hav Hss Hno. apply (reruns_default_gender m); [done|by left|done].
Qed.

Lemma C10_witness :
  Forall2 (fun ui (re : Outcome unit * list Event) =>
             re.1 = Return tt /\
             Render (Selected "Female") ∈ re.2 /\
             (predict_clicked ui = true ->
              ModelPredict [("Age", [slider_age ui]); ("Gender", [0])] ∈ re.2) /\
             (forall df, ModelPredict df ∈ re.2 ->
                         df = [("Age", [slider_age ui]); ("Gender", [0])]))
          [click_predict 25; click_predict 61]
          (reruns [click_predict 25; click_predict 61] (fresh sample_disk)).1.
Proof.
  apply (C10_default_gender_is_Female sample_tree
           [click_predict 25; click_predict 61] (fresh sample_disk)).
  - right. split; reflexivity.
  - reflexivity.
  - repeat constructor.
Defined.

(** * Further properties of the script *)

(** X1. No run of the script ends in an exception: whatever the disk, the
    session state and the cache hold and whatever the widgets report, and
    whatever the classifier does, every run of a sequence returns
    normally. *)
Theorem X1_runs_never_raise (uis : list Widgets) (w : World) :
  length (reruns uis w).1 = length uis /\
  Forall (fun re : Outcome unit * list Event => re.1 = Return tt)
         (reruns uis w).1.
Proof.
  split; [apply reruns_length|].
  revert w. induction uis as [|ui uis IH]; intros w; [constructor|].
  rewrite reruns_cons. cbn [fst snd]. constructor; [|apply IH].
  destruct (main_any ui w) as (v & els & evs0 & Hm & _). by rewrite Hm.
Qed.

(** X2. A sequence of runs never changes the disk, and the only session
    keys it ever writes are gender_sel and the keys of the two gender
    buttons, female and male: every other key keeps its value. *)
Theorem X2_runs_touch_only_gender_keys
    (uis : list Widgets) (w : World) (k : string) :
  k <> "gender_sel" -> k <> "female" -> k <> "male" ->
  disk (reruns uis w).2 = disk w /\
  session_state (reruns uis w).2 !! k = session_state w !! k.
Proof.
  intros Hk Hf Hm. revert w. induction uis as [|ui uis IH]; intros w; [done|].
  rewrite reruns_cons. cbn [fst snd].
  destruct (IH (main ui w).1.2) as [IHd IHs].
  destruct (main_frame ui w) as [Hd Hs].
  split; [by rewrite IHd|]. rewrite IHs. by apply Hs.
Qed.

Lemma X2_witness :
  disk (reruns [click_male 30; click_predict 30] (selected "Female")).2 =
    disk (selected "Female") /\
  session_state (reruns [click_male 30; click_predict 30] (selected "Female")).2
    !! "visits" = session_state (selected "Female") !! "visits".
Proof.
  apply (X2_runs_touch_only_gender_keys
           [click_male 30; click_predict 30] (selected "Female") "visits");
    discriminate.
Defined.

(** X3. The model file is looked for and loaded in the first run only:
    after any first run, no later run calls os.path.exists or
    joblib.load, whatever the first load gave. *)
Theorem X3_disk_read_in_first_run_only
    (ui : Widgets) (uis : list Widgets) (w : World) :
  Forall (fun re : Outcome unit * list Event =>
            Forall (fun ev => disk_call ev = false) re.2)
         (drop 1 (reruns (ui :: uis) w).1).
Proof.
  rewrite reruns_cons. cbn [fst drop].
  apply reruns_no_disk_call, main_keeps_cache_set.
Qed.

(** X4. The stored gender selection is only ever unset, "Female" or
    "Male": if it is so before a sequence of runs, it is so after it. *)
Theorem X4_selection_stays_known (uis : list Widgets) (w : World) :
  selection_ok w -> selection_ok (reruns uis w).2.
Proof.
  revert w. induction uis as [|ui uis IH]; intros w Hok; [done|].
  rewrite reruns_cons. cbn [snd]. by apply IH, main_selection_ok.
Qed.

Lemma X4_witness :
  selection_ok (reruns [click_both 30; idle 30] (fresh sample_disk)).2.
Proof.
  apply (X4_selection_stays_known [click_both 30; idle 30] (fresh sample_disk)).
  left. reflexivity.
Defined.

(** X5. A gender click takes effect in the run it triggers, whatever was
    stored before, and "Female" wins when both buttons report a click:
    the run stores and shows the clicked label, and a prediction in that
    run is asked on its encoding. *)
Theorem X5_click_sets_selection (m : Classifier) (ui : Widgets) (w : World) :
  available m w ->
  female_clicked ui = true \/ male_clicked ui = true ->
  let g := if female_clicked ui then "Female" else "Male" in
  session_state (main ui w).1.2 !! "gender_sel" = Some (PyStr g) /\
  Render (Selected g) ∈ (main ui w).2 /\
  predict_calls (main ui w).2 =
    if predict_clicked ui
    then [[("Age", [slider_age ui]);
           ("Gender", [if female_clicked ui then 0 else 1])]]
    else [].
Proof.
  intros Hav Hclick g.
  destruct (main_available_summary m ui w Hav) as (_ & _ & Hss & Hsel & Hcalls).
  assert (Hch : chosen (female_clicked ui) (male_clicked ui) (session_state w)
                = PyStr g).
  { unfold chosen, g. destruct (female_clicked ui); [done|].
    destruct Hclick as [? | ->]; done. }
  rewrite Hch in *. split; [done|]. split; [done|].
  rewrite Hcalls. unfold g. by destruct (female_clicked ui).
Qed.

Lemma X5_witness :
  session_state (main (click_both 40) (selected "Male")).1.2 !! "gender_sel" =
    Some (PyStr "Female") /\
  Render (Selected "Female") ∈ (main (click_both 40) (selected "Male")).2 /\
  predict_calls (main (click_both 40) (selected "Male")).2 =
    [[("Age", [40]); ("Gender", [0])]].
Proof.
  apply (X5_click_sets_selection sample_tree (click_both 40) (selected "Male")).
  - left. reflexivity.
  - left. reflexivity.
Defined.

(** X6. A stored selection persists: through any sequence of runs without
    a gender click, every run shows the stored label, asks a requested
    prediction exactly once on the slider age and the label's encoding,
    asks none when the prediction button was not clicked, and leaves the
    label stored. *)
Theorem X6_selection_persists
    (m : Classifier) (uis : list Widgets) (w : World) (g : string) :
  available m w ->
  session_state w !! "gender_sel" = Some (PyStr g) ->
  Forall (fun ui => female_clicked ui = false /\ male_clicked ui = false) uis ->
  Forall2 (fun ui (re : Outcome unit * list Event) =>
             re.1 = Return tt /\
             Render (Selected g) ∈ re.2 /\
             predict_calls re.2 =
               if predict_clicked ui
               then [[("Age", [slider_age ui]);
                      ("Gender", [gender_encoded (PyStr g)])]]
               else [])
          uis (reruns uis w).1 /\
  session_state (reruns uis w).2 !! "gender_sel" = Some (PyStr g).
Proof. apply reruns_keep_selection. Qed.

Lemma X6_witness :
  Forall2 (fun ui (re : Outcome unit * list Event) =>
             re.1 = Return tt /\
             Render (Selected "Male") ∈ re.2 /\
             predict_calls re.2 =
               if predict_clicked ui
               then [[("Age", [slider_age ui]);
                      ("Gender", [gender_encoded (PyStr "Male")])]]
               else [])
          [idle 33; click_predict 34]
          (reruns [idle 33; click_predict 34] (selected "Male")).1 /\
  session_state (reruns [idle 33; click_predict 34] (selected "Male")).2
    !! "gender_sel" = Some (PyStr "Male").
Proof.
  apply (X6_selection_persists sample_tree [idle 33; click_predict 34]
           (selected "Male") "Male").
  - left. reflexivity.
  - reflexivity.
  - repeat constructor.
Defined.

(** X7. In a run with the artifact at hand, the label the run stores, the
    label it shows as selected and the Gender value it sends to the
    classifier agree, and the Age sent is the slider position as
    reported, whatever integer it is (it is neither checked nor
    clamped). *)
Theorem X7_frame_matches_selection (m : Classifier) (ui : Widgets) (w : World) :
  available m w ->
  exists g,
    session_state (main ui w).1.2 !! "gender_sel" = Some g /\
    Render (Selected (py_str g)) ∈ (main ui w).2 /\
    predict_calls (main ui w).2 =
      if predict_clicked ui
      then [[("Age", [slider_age ui]); ("Gender", [gender_encoded g])]]
      else [].
Proof.
  intros Hav.
  destruct (main_available_summary m ui w Hav) as (_ & _ & Hss & Hsel & Hcalls).
  eexists. split; [exact Hss|]. split; [exact Hsel|exact Hcalls].
Qed.

Lemma X7_witness :
  exists g,
    session_state (main (click_predict (-5)) (fresh sample_disk)).1.2
      !! "gender_sel" = Some g /\
    Render (Selected (py_str g)) ∈
      (main (click_predict (-5)) (fresh sample_disk)).2 /\
    predict_calls (main (click_predict (-5)) (fresh sample_disk)).2 =
      [[("Age", [-5]); ("Gender", [gender_encoded g])]].
Proof.
  apply (X7_frame_matches_selection sample_tree (click_predict (-5))
           (fresh sample_disk)).
  right. split; reflexivity.
Defined.

(** X8. A run in which the prediction button was not clicked never calls
    the classifier, in any world. *)
Theorem X8_no_click_no_classifier_call (ui : Widgets) (w : World) :
  predict_clicked ui = false ->
  Forall (fun ev => classifier_call ev = false) (main ui w).2.
Proof.
  intros Hgo. destruct (main_any ui w) as (v & els & evs0 & Hm & Hc & _).
  rewrite Hm. cbn [snd]. apply Forall_app.
  split; [done|by apply page_no_classifier_call].
Qed.

Lemma X8_witness :
  Forall (fun ev => classifier_call ev = false)
         (main (click_male 30) (fresh sample_disk)).2.
Proof.
  apply (X8_no_click_no_classifier_call (click_male 30) (fresh sample_disk)).
  reflexivity.
Defined.

(** X9. When the artifact file cannot be deserialized, the process serves
    in degraded mode throughout: every run returns normally, shows the
    model-not-found notice, offers no button and never calls the
    classifier. *)
Theorem X9_corrupt_artifact_degrades
    (e : Exception) (uis : list Widgets) (w : World) :
  undeserializable e w ->
  length (reruns uis w).1 = length uis /\
  Forall (fun re : Outcome unit * list Event =>
            re.1 = Return tt /\
            Render ModelNotFound ∈ re.2 /\
            (forall label, Render (Button label) ∉ re.2) /\
            Forall (fun ev => classifier_call ev = false) re.2)
         (reruns uis w).1.
Proof.
  intros Hun. split; [apply reruns_length|].
  revert w Hun. induction uis as [|ui uis IH]; intros w Hun; [constructor|].
  rewrite reruns_cons. cbn [fst snd].
  destruct (main_undeserializable e ui w Hun) as (Hun' & Hr & calls & Hev & Hcalls).
  constructor; [|by apply IH].
  cbn [fst snd]. rewrite Hev. split; [done|]. split; [|split].
  - apply elem_of_app. right. do 2 apply list_elem_of_further.
    apply list_elem_of_here.
  - intros label Hin. apply elem_of_app in Hin as [Hin|Hin].
    + rewrite Forall_forall in Hcalls. apply Hcalls in Hin. discriminate.
    + repeat (apply elem_of_cons in Hin as [Hin|Hin]; [discriminate|]).
      by apply not_elem_of_nil in Hin.
  - apply Forall_app. split; [|repeat constructor].
    eapply Forall_impl; [exact Hcalls|]. by intros [] ?.
Qed.

Lemma X9_witness :
  length (reruns [click_predict 25; click_male 25] (fresh corrupt_disk)).1 = 2%nat /\
  Forall (fun re : Outcome unit * list Event =>
            re.1 = Return tt /\
            Render ModelNotFound ∈ re.2 /\
            (forall label, Render (Button label) ∉ re.2) /\
            Forall (fun ev => classifier_call ev = false) re.2)
         (reruns [click_predict 25; click_male 25] (fresh corrupt_disk)).1.
Proof.
  apply (X9_corrupt_artifact_degrades unpickling_error
           [click_predict 25; click_male 25] (fresh corrupt_disk)).
  split; [reflexivity|by left].
Defined.

(** X10. Empty answers of the classifier are reported, not shown as
    results: if predict returns no label (predict_proba is then not
    called), or predict_proba returns no row or an empty first row, the
    prediction block returns normally, shows one error carrying the
    IndexError's or ValueError's message and shows no result card. *)
Theorem X10_empty_answers_reported
    (m : Classifier) (df : DataFrame) (w : World) :
  predict m df = Return [] \/
  (exists label labels,
      predict m df = Return (label :: labels) /\
      (predict_proba m df = Return [] \/
       exists rows, predict_proba m df = Return ([] :: rows))) ->
  exists e,
    (make_prediction m df w).1.1 = Return tt /\
    shown (make_prediction m df w).2 =
      [StError ("Error making prediction: " ++ str e)] /\
    (e = IndexError \/ e = ValueError) /\
    (predict m df = Return [] ->
     (make_prediction m df w).2 =
       [ModelPredict df; Render (StError ("Error making prediction: " ++ str e))]).
Proof.
  intros [Hl|(label & labels & Hl & [Hp|[rows Hp]])]; unfold_script;
    rewrite Hl; simpl; try rewrite Hp; simpl.
  - exists IndexError. repeat split; auto.
  - exists IndexError. repeat split; auto. discriminate.
  - exists ValueError. repeat split; auto. discriminate.
Qed.

Lemma X10_witness :
  exists e,
    (make_prediction no_label_tree [("Age", [25]); ("Gender", [0])] (fresh ∅)).1.1 =
      Return tt /\
    shown (make_prediction no_label_tree [("Age", [25]); ("Gender", [0])] (fresh ∅)).2 =
      [StError ("Error making prediction: " ++ str e)] /\
    (e = IndexError \/ e = ValueError) /\
    (predict no_label_tree [("Age", [25]); ("Gender", [0])] = Return [] ->
     (make_prediction no_label_tree [("Age", [25]); ("Gender", [0])] (fresh ∅)).2 =
       [ModelPredict [("Age", [25]); ("Gender", [0])];
        Render (StError ("Error making prediction: " ++ str e))]).
Proof.
  apply (X10_empty_answers_reported no_label_tree
           [("Age", [25]); ("Gender", [0])] (fresh ∅)).
  left. reflexivity.
Defined.

(** X11. For any number of classes, when the first row predict_proba
    returns holds probabilities (entries in [0,1]), the card shows the
    first label predict returned and the product with 100 of the largest
    entry of that row, which lies in [0,100]; later labels and rows are
    not looked at. *)
Theorem X11_confidence_of_any_row
    (m : Classifier) (df : DataFrame) (w : World)
    (label : string) (labels : list string)
    (p : float) (ps : list float) (rows : list (list float)) :
  predict m df = Return (label :: labels) ->
  predict_proba m df = Return ((p :: ps) :: rows) ->
  Forall (fun q => (0 <=? q)%float = true /\ (q <=? 1)%float = true)
         (p :: ps) ->
  exists top : float,
    cards (make_prediction m df w).2 = [(label, (top * 100)%float)] /\
    In top (p :: ps) /\
    (forall q, In q (p :: ps) -> (q <=? top)%float = true) /\
    (0 <=? top * 100)%float = true /\
    (top * 100 <=? 100)%float = true.
Proof.
  intros Hl Hp Hb. exists (max_from p ps).
  rewrite (make_prediction_card m df w label labels p ps rows Hl Hp).
  split; [reflexivity|]. by apply max_from_probabilities.
Qed.

Lemma X11_witness :
  exists top : float,
    cards (make_prediction comedy_tree [("Age", [25]); ("Gender", [0])] (fresh ∅)).2 =
      [("Comedy", (top * 100)%float)] /\
    In top [0.25; 0.5; 0.25]%float /\
    (forall q, In q [0.25; 0.5; 0.25]%float -> (q <=? top)%float = true) /\
    (0 <=? top * 100)%float = true /\
    (top * 100 <=? 100)%float = true.
Proof.
  apply (X11_confidence_of_any_row comedy_tree
           [("Age", [25]); ("Gender", [0])] (fresh ∅) "Comedy" []
           0.25%float [0.5; 0.25]%float []);
    [reflexivity | reflexivity |].
  repeat (constructor; [split; reflexivity|]). constructor.
Defined.
